(** * go-promhttp: instrumented outgoing HTTP client ([client.go])

    A shallow embedding of [client.go] and a verification of the properties
    its specification states about it.

    Conventions of the embedding.
    - Go's [int] is the 64-bit two's-complement integer of the usual
      targets; it is a [Z] on which every addition is wrapped explicitly
      ([wrapInt], [addInt]).
    - A Go [string] is a sequence of bytes, and [len] counts bytes: it is a
      Rocq [string], whose [ascii] elements are bytes.  Wherever the
      specification says "character" the embedding reads "byte".
    - [map[string][]string] is a [gmap string (list string)].
    - A pointer the code compares with [nil] is an [option]; a pair
      [(resp, err)] of Go results is a pair of options, and dereferencing a
      [nil] response is a [Panicked] outcome.
    - Instruments of the metrics library are not implemented here: an
      observation appends an [Event] to a log, in program order. *)

From Stdlib Require Import ZArith QArith String Ascii List Lia DecimalString.
From stdpp Require Import base option list strings gmap fin_maps.

Local Open Scope Z_scope.
Local Open Scope string_scope.
Local Open Scope list_scope.

(** ** Machine integers *)

Module GoInt.

Definition intSize : Z := 64.
Definition maxInt : Z := 2 ^ (intSize - 1) - 1.
Definition minInt : Z := - 2 ^ (intSize - 1).

(** Two's-complement wrap-around of a mathematical integer to [int]. *)
Definition wrapInt (z : Z) : Z :=
  (z + 2 ^ (intSize - 1)) mod 2 ^ intSize - 2 ^ (intSize - 1).

(** [a + b] on [int]. *)
Definition addInt (a b : Z) : Z := wrapInt (a + b).

(** [int(x)] for an [int64] [x]. *)
Definition int_of_int64 (x : Z) : Z := wrapInt x.

Definition inInt (z : Z) : Prop := minInt <= z <= maxInt.

(** [len(s)]: the number of bytes of [s]. *)
Definition len (s : string) : Z := Z.of_nat (String.length s).

(** [fmt.Sprint(n)] for an [int]: decimal digits, a leading [-] when
    negative. *)
Definition Sprint (n : Z) : string := NilZero.string_of_int (Z.to_int n).

End GoInt.
Import GoInt.

(** ** Requests and responses ([net/http]) *)

(** A [*url.URL], carried as the text [URL.String()] serialises it to. *)
Record URL : Type := mkURL { URL_String : string }.

(** A [*http.Response]; [RespContentLength] is its field [ContentLength],
    -1 when the length is unknown. *)
Record Response : Type := mkResponse {
  StatusCode : Z;
  RespContentLength : Z
}.

(** ** Metrics ([prometheus]) *)

Abbreviation Labels := (gmap string string).

Inductive Kind : Type := CounterVec | HistogramVec | Gauge.

Inductive Buckets : Type :=
| NoBuckets
| DefBuckets
| BucketList (bounds : list Q).

(** An instrument as its constructor receives it: the options and the
    variable label names. *)
Record Instrument : Type := mkInstrument {
  kind : Kind;
  Namespace : string;
  Subsystem : string;
  Name : string;
  Help : string;
  buckets : Buckets;
  ConstLabels : Labels;
  variableLabels : list string
}.

(** A [float64] handed to an instrument, kept as the expression that
    produced it: either the conversion [float64(n)] of an integer, or
    [d.Seconds()] of an elapsed time of [d] nanoseconds. *)
Inductive Float64 : Type :=
| float64_of_int (n : Z)
| Seconds (d : Z).

Inductive Action : Type :=
| Inc
| Dec
| Observe (v : Float64).

(** One call on an instrument: [ins.With(labels).Observe(v)] and the
    like. *)
Record Event : Type := mkEvent {
  target : Instrument;
  labels : Labels;
  action : Action
}.

(** The world the round trippers run in: the wall clock, in nanoseconds,
    and the calls made on instruments so far, oldest first. *)
Record State : Type := mkState {
  now : Z;
  log : list Event
}.

Definition record (e : Event) (s : State) : State :=
  {| now := now s; log := log s ++ [e] |}.

(** [httptrace] hooks installed in a request's context; each receives the
    time elapsed since the trace layer started. *)
Record InstrumentTrace : Type := mkInstrumentTrace {
  DNSStart : option (Z -> State -> State);
  DNSDone : option (Z -> State -> State);
  TLSHandshakeStart : option (Z -> State -> State);
  TLSHandshakeDone : option (Z -> State -> State)
}.

(** A [*http.Request]; [ReqURL] is its field [URL]. *)
Record Request : Type := mkRequest {
  Method : string;
  ReqURL : option URL;
  Proto : string;
  Header : gmap string (list string);
  Host : string;
  ContentLength : Z;
  (** the client trace of [r.Context()], with the time it was installed *)
  ctxTrace : option (Z * InstrumentTrace)
}.

(** What a call of [RoundTrip] comes to: the pair [(resp, err)] it
    returns, either of which may be [nil], or a panic. *)
Inductive Outcome : Type :=
| Returned (resp : option Response) (err : option string)
| Panicked (msg : string).

(** [http.RoundTripper]: [RoundTrip(r)] run in a state. *)
Definition RoundTripper : Type := Request -> State -> Outcome * State.

Definition nilDereference : string :=
  "invalid memory address or nil pointer dereference".

(** *** The network transport

    The transport at the bottom of a chain, as the specification defines
    it: given a request it returns a response or fails.  On the way it
    passes the connection phases, and it takes some time. *)

Inductive Phase : Type :=
| PhaseDNSStart | PhaseDNSDone | PhaseTLSHandshakeStart | PhaseTLSHandshakeDone.

Record TransportRun : Type := mkRun {
  phases : list (Phase * Z);      (* phase, nanoseconds after the start *)
  elapsed : Z;
  result : Response + string
}.

Definition NetworkTransport : Type := Request -> TransportRun.

Definition hook (it : InstrumentTrace) (ph : Phase) : option (Z -> State -> State) :=
  match ph with
  | PhaseDNSStart => DNSStart it
  | PhaseDNSDone => DNSDone it
  | PhaseTLSHandshakeStart => TLSHandshakeStart it
  | PhaseTLSHandshakeDone => TLSHandshakeDone it
  end.

Definition setNow (t : Z) (s : State) : State := {| now := t; log := log s |}.

(** The transport reaches a phase at time [at]: the hook of the request's
    context, if any, is called with the time since the trace started. *)
Definition fire (r : Request) (t0 : Z) (s : State) (p : Phase * Z) : State :=
  let at_ := t0 + snd p in
  match ctxTrace r with
  | Some (start, it) =>
      match hook it (fst p) with
      | Some h => h (at_ - start) (setNow at_ s)
      | None => s
      end
  | None => s
  end.

Definition clearTrace (r : Request) : Request :=
  {| Method := Method r; ReqURL := ReqURL r; Proto := Proto r; Header := Header r;
     Host := Host r; ContentLength := ContentLength r; ctxTrace := None |}.

Definition outcomeOf (res : Response + string) : Outcome :=
  match res with
  | inl resp => Returned (Some resp) None
  | inr e => Returned None (Some e)
  end.

(** [RoundTrip] of a network transport.  The hooks return nothing, so the
    run is decided by the request without them. *)
Definition baseRoundTrip (t : NetworkTransport) : RoundTripper :=
  fun r s =>
    let run := t (clearTrace r) in
    let s1 := fold_left (fire r (now s)) (phases run) s in
    (outcomeOf (result run), setNow (now s + elapsed run) s1).

(** ** [computeApproximateRequestSize] *)

Definition headerStep (name : string) (values : list string) (s : Z) : Z :=
  fold_left (fun s value => addInt s (len value)) values (addInt s (len name)).

Definition computeApproximateRequestSize (r : Request) : Z :=
  let s := 0 in
  let s := match ReqURL r with
           | Some u => addInt s (len (URL_String u))
           | None => s
           end in
  let s := addInt s (len (Method r)) in
  let s := addInt s (len (Proto r)) in
  let s := map_fold headerStep s (Header r) in
  let s := addInt s (len (Host r)) in
  if Z.eqb (ContentLength r) (-1) then s
  else addInt s (int_of_int64 (ContentLength r)).

(** The size as the specification words it, over the mathematical
    integers: the lengths of the serialised URL, the method, the protocol,
    every header name and every header value, the host, and the declared
    content length unless it is the sentinel [-1]. *)
Definition sumLen (values : list string) : Z :=
  foldr (fun value acc => len value + acc) 0 values.

Definition headerBytes (h : gmap string (list string)) : Z :=
  map_fold (fun name values acc => len name + sumLen values + acc) 0 h.

Definition specRequestSize (r : Request) : Z :=
  match ReqURL r with Some u => len (URL_String u) | None => 0 end
  + len (Method r) + len (Proto r) + headerBytes (Header r) + len (Host r)
  + (if Z.eqb (ContentLength r) (-1) then 0 else ContentLength r).

(** [computeApproximateRequestSize] with the order made explicit in which
    [range r.Header] hands out the entries of the map, which Go leaves
    unspecified. *)
Definition computeApproximateRequestSizeIn
    (order : list (string * list string)) (r : Request) : Z :=
  let s := 0 in
  let s := match ReqURL r with
           | Some u => addInt s (len (URL_String u))
           | None => s
           end in
  let s := addInt s (len (Method r)) in
  let s := addInt s (len (Proto r)) in
  let s := fold_left (fun s '(name, values) => headerStep name values s) order s in
  let s := addInt s (len (Host r)) in
  if Z.eqb (ContentLength r) (-1) then s
  else addInt s (int_of_int64 (ContentLength r)).

(** The bytes of a sequence of header entries, names and values. *)
Definition entriesBytes (l : list (string * list string)) : Z :=
  foldr (fun p acc => len (fst p) + sumLen (snd p) + acc) 0 l.

(** ** The metric set *)

(** Modelled from the spec: the constant [subsystemHTTPOutgoing] is declared
    in a file of the package other than [client.go]; the specification
    gives its value, the subsystem tag [http_outgoing]. *)
Definition subsystemHTTPOutgoing : string := "http_outgoing".

Record outgoingInstrumentation : Type := mkOutgoingInstrumentation {
  duration : Instrument;
  requests : Instrument;
  dnsDuration : Instrument;
  tlsDuration : Instrument;
  inflight : Instrument;
  requestSize : Instrument;
  responseContentLength : Instrument
}.

Definition sizeBuckets : Buckets :=
  BucketList [100 # 1; 1000 # 1; 2000 # 1; 5000 # 1; 10000 # 1]%Q.

(** The literal [&outgoingInstrumentation{...}] that
    [instrumentClientWithConstLabels] starts with. *)
Definition newOutgoingInstrumentation (namespace : string) (constLabels : Labels)
  : outgoingInstrumentation :=
  {| requests :=
       {| kind := CounterVec; Namespace := namespace;
          Subsystem := subsystemHTTPOutgoing; Name := "requests_total";
          Help := "A counter for outgoing requests from the wrapped client.";
          buckets := NoBuckets; ConstLabels := constLabels;
          variableLabels := ["code"; "method"] |};
     requestSize :=
       {| kind := HistogramVec; Namespace := namespace;
          Subsystem := subsystemHTTPOutgoing; Name := "request_size_histogram_bytes";
          Help := "Request size in bytes.";
          buckets := sizeBuckets; ConstLabels := constLabels;
          variableLabels := ["code"; "method"] |};
     responseContentLength :=
       {| kind := HistogramVec; Namespace := namespace;
          Subsystem := subsystemHTTPOutgoing;
          Name := "response_content_length_histogram";
          Help := "Response content length in bytes.";
          buckets := sizeBuckets; ConstLabels := constLabels;
          variableLabels := ["code"; "method"] |};
     duration :=
       {| kind := HistogramVec; Namespace := namespace;
          Subsystem := subsystemHTTPOutgoing;
          Name := "request_duration_histogram_seconds";
          Help := "A histogram of outgoing request latencies.";
          buckets := DefBuckets; ConstLabels := constLabels;
          variableLabels := ["method"] |};
     dnsDuration :=
       {| kind := HistogramVec; Namespace := namespace;
          Subsystem := subsystemHTTPOutgoing; Name := "dns_duration_histogram_seconds";
          Help := "Trace dns latency histogram.";
          buckets := BucketList [5 # 1000; 1 # 100; 25 # 1000; 5 # 100]%Q;
          ConstLabels := constLabels; variableLabels := ["event"] |};
     tlsDuration :=
       {| kind := HistogramVec; Namespace := namespace;
          Subsystem := subsystemHTTPOutgoing; Name := "tls_duration_histogram_seconds";
          Help := "Trace tls latency histogram.";
          buckets := BucketList [5 # 100; 1 # 10; 25 # 100; 5 # 10]%Q;
          ConstLabels := constLabels; variableLabels := ["event"] |};
     inflight :=
       {| kind := Gauge; Namespace := namespace;
          Subsystem := subsystemHTTPOutgoing; Name := "in_flight_requests";
          Help := "A gauge of in-flight outgoing requests for the wrapped client.";
          buckets := NoBuckets; ConstLabels := constLabels;
          variableLabels := [] |} |}.

(** [prometheus.Collector].  A channel that is only sent on is the list of
    what is sent, in order. *)
Class Collector (C : Type) : Type := {
  Describe : C -> list Instrument;
  Collect : C -> State -> list Event
}.

Definition targets (ins : Instrument) (e : Event) : bool :=
  String.eqb (Name (target e)) (Name ins).

(** An instrument of the library describes itself by its one descriptor and
    collects what was recorded on it. *)
#[export] Instance Instrument_Collector : Collector Instrument := {|
  Describe ins := [ins];
  Collect ins s := List.filter (targets ins) (log s)
|}.

#[export] Instance outgoingInstrumentation_Collector
  : Collector outgoingInstrumentation := {|
  Describe i :=
    Describe (duration i) ++ Describe (requests i) ++ Describe (dnsDuration i)
    ++ Describe (tlsDuration i) ++ Describe (inflight i)
    ++ Describe (requestSize i) ++ Describe (responseContentLength i);
  Collect i s :=
    Collect (duration i) s ++ Collect (requests i) s ++ Collect (dnsDuration i) s
    ++ Collect (tlsDuration i) s ++ Collect (inflight i) s
    ++ Collect (requestSize i) s ++ Collect (responseContentLength i) s
|}.

(** The fields of the struct, in the order [Describe] and [Collect] walk
    them. *)
Definition instruments (i : outgoingInstrumentation) : list Instrument :=
  [duration i; requests i; dnsDuration i; tlsDuration i; inflight i;
   requestSize i; responseContentLength i].

Definition countKind (k : Kind) (l : list Instrument) : nat :=
  length (List.filter (fun ins => match kind ins, k with
                          | CounterVec, CounterVec
                          | HistogramVec, HistogramVec
                          | Gauge, Gauge => true
                          | _, _ => false
                          end) l).

(** [prometheus.Registerer]: [Register] answers with an error or [nil] and
    leaves the registry in a new state. *)
Class Registerer (R : Type) : Type := {
  Register : R -> outgoingInstrumentation -> R * option string
}.

(** Modelled from the spec: the registry is the metrics library's.  It
    holds the descriptors registered so far and refuses a collector one of
    whose descriptors has the namespace, subsystem, name and constant
    labels of a registered one. *)
Definition sameDefinition (a b : Instrument) : bool :=
  String.eqb (Namespace a) (Namespace b) && String.eqb (Subsystem a) (Subsystem b)
  && String.eqb (Name a) (Name b) && bool_decide (ConstLabels a = ConstLabels b).

Definition Registry : Type := list Instrument.

Definition duplicateError : string :=
  "duplicate metrics collector registration attempted".

#[export] Instance Registry_Registerer : Registerer Registry := {|
  Register reg i :=
    if existsb (fun d => existsb (sameDefinition d) reg) (Describe i)
    then (reg, Some duplicateError)
    else (reg ++ Describe i, None)
|}.

(** ** Clients ([http.Client]) *)

Record HttpClient : Type := mkHttpClient {
  Transport : option RoundTripper;
  CheckRedirect : option (Request -> list Request -> option string);
  Jar : option positive;          (* the cookie jar, by identity *)
  Timeout : Z
}.

(** Clients live in a heap and are passed by pointer; [None] is [nil]. *)
Abbreviation Heap := (list HttpClient).
Abbreviation pointer := (option nat).

Definition deref (h : Heap) (p : pointer) : option HttpClient :=
  match p with
  | Some l => h !! l
  | None => None
  end.

(** [Client] of this package: the embedded [*http.Client], the registerer
    (its current state) and the namespace. *)
Record Client (R : Type) : Type := mkClient {
  Client_Client : pointer;
  Client_Registerer : R;
  Client_Namespace : string
}.
Arguments mkClient {R}.
Arguments Client_Client {R}.
Arguments Client_Registerer {R}.
Arguments Client_Namespace {R}.

Inductive Result (A : Type) : Type :=
| Done (a : A)
| Panic (msg : string).
Arguments Done {A}.
Arguments Panic {A}.

Section Instrumentation.

(** [strings.ToLower] and [http.DefaultTransport], of Go's library. *)
Variable ToLower : string -> string.
Variable DefaultTransport : RoundTripper.

Definition codeMethod (resp : Response) (r : Request) : Labels :=
  {[ "code" := Sprint (StatusCode resp); "method" := ToLower (Method r) ]}.

(** *** Layers of this package *)

Definition instrumentRoundTripperRequestSize
    (obs : Instrument) (next : RoundTripper) : RoundTripper :=
  fun r s =>
    let '(out, s) := next r s in
    match out with
    | Returned resp err =>
        match err with
        | None =>
            match resp with
            | Some rsp =>
                let labels := codeMethod rsp r in
                (Returned resp err,
                 record (mkEvent obs labels
                   (Observe (float64_of_int (computeApproximateRequestSize r)))) s)
            | None => (Panicked nilDereference, s)
            end
        | Some _ => (Returned resp err, s)
        end
    | Panicked msg => (Panicked msg, s)
    end.

Definition instrumentRoundTripperResponseContentLength
    (obs : Instrument) (next : RoundTripper) : RoundTripper :=
  fun r s =>
    let '(out, s) := next r s in
    match out with
    | Returned resp err =>
        match err with
        | None =>
            match resp with
            | Some rsp =>
                let labels := codeMethod rsp r in
                (Returned resp err,
                 record (mkEvent obs labels
                   (Observe (float64_of_int (RespContentLength rsp)))) s)
            | None => (Panicked nilDereference, s)
            end
        | Some _ => (Returned resp err, s)
        end
    | Panicked msg => (Panicked msg, s)
    end.

(** *** Layers of the metrics library, package [pph] *)

(** Modelled from the spec: [pph.InstrumentRoundTripperInFlight] is the
    metrics library's.  It increments the gauge before delegating and
    decrements it after, whatever the delegate did. *)
Definition InstrumentRoundTripperInFlight
    (gauge : Instrument) (next : RoundTripper) : RoundTripper :=
  fun r s =>
    let s := record (mkEvent gauge ∅ Inc) s in
    let '(out, s) := next r s in
    (out, record (mkEvent gauge ∅ Dec) s).

(** Modelled from the spec: [pph.InstrumentRoundTripperCounter] is the
    metrics library's.  After delegating, on success, it increments the
    counter keyed by the response's status code and the lower-cased
    method; on failure it does not. *)
Definition InstrumentRoundTripperCounter
    (counter : Instrument) (next : RoundTripper) : RoundTripper :=
  fun r s =>
    let '(out, s) := next r s in
    match out with
    | Returned (Some rsp) None =>
        (out, record (mkEvent counter (codeMethod rsp r) Inc) s)
    | Returned None None => (Panicked nilDereference, s)
    | _ => (out, s)
    end.

(** Modelled from the spec: [pph.InstrumentRoundTripperTrace] is the
    metrics library's.  It installs the hooks in the request's context
    and delegates. *)
Definition InstrumentRoundTripperTrace
    (it : InstrumentTrace) (next : RoundTripper) : RoundTripper :=
  fun r s =>
    let start := now s in
    let r := {| Method := Method r; ReqURL := ReqURL r; Proto := Proto r;
                Header := Header r; Host := Host r;
                ContentLength := ContentLength r;
                ctxTrace := Some (start, it) |} in
    next r s.

(** Modelled from the spec: [pph.InstrumentRoundTripperDuration] is the
    metrics library's.  It measures the time around the delegate's call
    and observes it labelled by the method only, on success and on
    failure. *)
Definition InstrumentRoundTripperDuration
    (obs : Instrument) (next : RoundTripper) : RoundTripper :=
  fun r s =>
    let start := now s in
    let '(out, s) := next r s in
    match out with
    | Returned _ _ =>
        (out, record (mkEvent obs {[ "method" := ToLower (Method r) ]}
                       (Observe (Seconds (now s - start)))) s)
    | Panicked _ => (out, s)
    end.

(** *** [instrumentClientWithConstLabels] and [ForRecipient] *)

Definition observeEvent (ins : Instrument) (event : string) (t : Z) : State -> State :=
  record (mkEvent ins {[ "event" := event ]} (Observe (Seconds t))).

(** The literal [&pph.InstrumentTrace{...}]. *)
Definition newTrace (i : outgoingInstrumentation) : InstrumentTrace :=
  {| DNSStart := Some (observeEvent (dnsDuration i) "dns_start");
     DNSDone := Some (observeEvent (dnsDuration i) "dns_done");
     TLSHandshakeStart := Some (observeEvent (tlsDuration i) "tls_handshake_start");
     TLSHandshakeDone := Some (observeEvent (tlsDuration i) "tls_handshake_done") |}.

(** The [Transport] of the client [instrumentClientWithConstLabels]
    returns. *)
Definition instrumentedTransport
    (i : outgoingInstrumentation) (transport : RoundTripper) : RoundTripper :=
  InstrumentRoundTripperInFlight (inflight i)
    (InstrumentRoundTripperCounter (requests i)
      (InstrumentRoundTripperTrace (newTrace i)
        (instrumentRoundTripperRequestSize (requestSize i)
          (instrumentRoundTripperResponseContentLength (responseContentLength i)
            (InstrumentRoundTripperDuration (duration i) transport))))).

Definition instrumentClientWithConstLabels {R : Type} `{Registerer R}
    (namespace : string) (c : pointer) (reg : R) (constLabels : Labels)
    (h : Heap) : Result (pointer * option string) * Heap * R :=
  let i := newOutgoingInstrumentation namespace constLabels in
  match deref h c with
  | None => (Panic nilDereference, h, reg)
  | Some base =>
      let transport := match Transport base with
                       | Some t => t
                       | None => DefaultTransport
                       end in
      let client := {| CheckRedirect := CheckRedirect base;
                       Jar := Jar base;
                       Timeout := Timeout base;
                       Transport := Some (instrumentedTransport i transport) |} in
      let '(reg, err) := Register reg i in
      (Done (Some (length h), err), h ++ [client], reg)
  end.

Definition ForRecipient {R : Type} `{Registerer R}
    (c : Client R) (recipient : string) (h : Heap)
  : Result (pointer * option string) * Heap * R :=
  instrumentClientWithConstLabels (Client_Namespace c) (Client_Client c)
    (Client_Registerer c) {[ "recipient" := recipient ]} h.

(** *** What the layers record *)

Definition requestSizeEvent (obs : Instrument) (resp : Response) (r : Request) : Event :=
  mkEvent obs (codeMethod resp r)
          (Observe (float64_of_int (computeApproximateRequestSize r))).

Definition responseContentLengthEvent
    (obs : Instrument) (resp : Response) (r : Request) : Event :=
  mkEvent obs (codeMethod resp r)
          (Observe (float64_of_int (RespContentLength resp))).

Definition phaseInstrument (i : outgoingInstrumentation) (ph : Phase) : Instrument :=
  match ph with
  | PhaseDNSStart | PhaseDNSDone => dnsDuration i
  | PhaseTLSHandshakeStart | PhaseTLSHandshakeDone => tlsDuration i
  end.

Definition phaseName (ph : Phase) : string :=
  match ph with
  | PhaseDNSStart => "dns_start"
  | PhaseDNSDone => "dns_done"
  | PhaseTLSHandshakeStart => "tls_handshake_start"
  | PhaseTLSHandshakeDone => "tls_handshake_done"
  end.

(** What a hook of [newTrace] records when the transport passes a phase. *)
Definition phaseEvent (i : outgoingInstrumentation) (p : Phase * Z) : Event :=
  mkEvent (phaseInstrument i (fst p)) {[ "event" := phaseName (fst p) ]}
          (Observe (Seconds (snd p))).

(** The calls on instruments one request makes through the chain, in
    program order. *)
Definition chainEvents
    (i : outgoingInstrumentation) (r : Request) (run : TransportRun) : list Event :=
  [mkEvent (inflight i) ∅ Inc]
  ++ map (phaseEvent i) (phases run)
  ++ [mkEvent (duration i) {[ "method" := ToLower (Method r) ]}
        (Observe (Seconds (elapsed run)))]
  ++ match result run with
     | inl resp =>
         [responseContentLengthEvent (responseContentLength i) resp r;
          requestSizeEvent (requestSize i) resp r;
          mkEvent (requests i) (codeMethod resp r) Inc]
     | inr _ => []
     end
  ++ [mkEvent (inflight i) ∅ Dec].

End Instrumentation.

(** ** Edits of a request *)

Definition appendByte (c : ascii) (value : string) : string :=
  value +:+ String c "".

Definition withHeader (r : Request) (h : gmap string (list string)) : Request :=
  {| Method := Method r; ReqURL := ReqURL r; Proto := Proto r; Header := h;
     Host := Host r; ContentLength := ContentLength r; ctxTrace := ctxTrace r |}.

Definition withContentLength (r : Request) (n : Z) : Request :=
  {| Method := Method r; ReqURL := ReqURL r; Proto := Proto r; Header := Header r;
     Host := Host r; ContentLength := n; ctxTrace := ctxTrace r |}.

(** ** Sample values *)

Definition emptyRequest : Request :=
  {| Method := ""; ReqURL := None; Proto := ""; Header := ∅; Host := "";
     ContentLength := 0; ctxTrace := None |}.

Definition getRequest : Request :=
  {| Method := "GET"; ReqURL := Some (mkURL "http://a/b"); Proto := "HTTP/1.1";
     Header := {[ "Accept" := ["*/*"; "x"] ]}; Host := "a";
     ContentLength := 42; ctxTrace := None |}.

(** A request that declares the largest content length [int64] holds. *)
Definition hugeRequest : Request :=
  {| Method := "GET"; ReqURL := None; Proto := ""; Header := ∅; Host := "";
     ContentLength := 9223372036854775807; ctxTrace := None |}.

(** A request that declares a negative content length other than the
    sentinel. *)
Definition negativeLengthRequest : Request :=
  {| Method := ""; ReqURL := None; Proto := ""; Header := ∅; Host := "";
     ContentLength := -2; ctxTrace := None |}.

(** A request whose estimate is the largest [int]. *)
Definition brimRequest : Request :=
  {| Method := ""; ReqURL := None; Proto := ""; Header := {[ "X" := ["v"] ]};
     Host := ""; ContentLength := 9223372036854775805; ctxTrace := None |}.

Definition lowerByte (c : ascii) : ascii :=
  let n := nat_of_ascii c in
  if (Nat.leb 65 n && Nat.leb n 90)%bool then ascii_of_nat (n + 32) else c.

(** [strings.ToLower] on ASCII text. *)
Fixpoint asciiToLower (s : string) : string :=
  match s with
  | EmptyString => EmptyString
  | String c s' => String (lowerByte c) (asciiToLower s')
  end.

(** A transport that resolves the name and answers 200 with 42 bytes. *)
Definition okTransport : NetworkTransport :=
  fun _ => {| phases := [(PhaseDNSStart, 1); (PhaseDNSDone, 3)];
              elapsed := 8;
              result := inl {| StatusCode := 200; RespContentLength := 42 |} |}.

(** A transport that answers with a body of undeclared length. *)
Definition chunkedTransport : NetworkTransport :=
  fun _ => {| phases := []; elapsed := 8;
              result := inl {| StatusCode := 200; RespContentLength := -1 |} |}.

Definition refusedTransport : NetworkTransport :=
  fun _ => {| phases := []; elapsed := 2; result := inr "connection refused" |}.

Definition baseClient : HttpClient :=
  {| Transport := None; CheckRedirect := None; Jar := Some 7%positive;
     Timeout := 30000000000 |}.

Definition billingClient (reg : Registry) : Client Registry :=
  {| Client_Client := Some 0%nat; Client_Registerer := reg; Client_Namespace := "app" |}.

Definition billing : outgoingInstrumentation :=
  newOutgoingInstrumentation "app" {[ "recipient" := "billing" ]}.

Definition startState : State := {| now := 100; log := [] |}.

Definition twoHeaderRequest : Request :=
  {| Method := "POST"; ReqURL := None; Proto := "HTTP/2.0";
     Header := {[ "A" := ["1"]; "B" := ["22"; "333"] ]}; Host := "h";
     ContentLength := -1; ctxTrace := None |}.

(** A round tripper that answers [out] and does nothing else. *)
Definition answering (out : Outcome) : RoundTripper := fun _ s => (out, s).

Definition okResponse : Response := {| StatusCode := 200; RespContentLength := 42 |}.

Definition shipping : outgoingInstrumentation :=
  newOutgoingInstrumentation "app" {[ "recipient" := "shipping" ]}.

(** A [Client] value whose embedded client was never set. *)
Definition zeroClient : Client Registry :=
  {| Client_Client := None; Client_Registerer := []; Client_Namespace := "app" |}.

(** * Properties *)

(** ** Arithmetic of [int] *)

Section GoIntFacts.

Ltac int_bounds :=
  unfold wrapInt, addInt, minInt, maxInt, intSize in *;
  change (2 ^ (64 - 1)) with 9223372036854775808 in *;
  change (2 ^ 64) with 18446744073709551616 in *.

Lemma wrapInt_small z : minInt <= z <= maxInt -> wrapInt z = z.
Proof. intros Hz. int_bounds. rewrite Z.mod_small; lia. Qed.

Lemma wrapInt_range z : minInt <= wrapInt z <= maxInt.
Proof.
  int_bounds.
  pose proof (Z.mod_pos_bound (z + 9223372036854775808) 18446744073709551616).
  lia.
Qed.

Lemma wrapInt_add_l a b : wrapInt (wrapInt a + b) = wrapInt (a + b).
Proof.
  int_bounds.
  replace ((a + 9223372036854775808) mod 18446744073709551616
           - 9223372036854775808 + b + 9223372036854775808)
    with ((a + 9223372036854775808) mod 18446744073709551616 + b) by lia.
  rewrite Z.add_mod_idemp_l by lia.
  f_equal. f_equal. lia.
Qed.

Lemma wrapInt_add_r a b : wrapInt (a + wrapInt b) = wrapInt (a + b).
Proof. rewrite Z.add_comm, wrapInt_add_l. f_equal. lia. Qed.

Lemma addInt_wrapInt a b : addInt (wrapInt a) b = wrapInt (a + b).
Proof. apply wrapInt_add_l. Qed.

(** Below [maxInt] an increment does not wrap. *)
Lemma wrapInt_succ z : wrapInt z < maxInt -> wrapInt (z + 1) = wrapInt z + 1.
Proof.
  intros Hlt. rewrite <- wrapInt_add_l.
  apply wrapInt_small. pose proof (wrapInt_range z). int_bounds. lia.
Qed.

Lemma len_nonneg s : 0 <= len s.
Proof. unfold len. lia. Qed.

Lemma len_append s1 s2 : len (s1 +:+ s2) = len s1 + len s2.
Proof.
  unfold len. induction s1 as [|c s1 IH]; [reflexivity|].
  change (String c s1 +:+ s2) with (String c (s1 +:+ s2)).
  cbn [String.length]. rewrite !Nat2Z.inj_succ. lia.
Qed.

End GoIntFacts.

Example sprint_examples : Sprint 200 = "200" /\ Sprint 0 = "0" /\ Sprint (-7) = "-7".
Proof. vm_compute. auto. Qed.

(** ** The size estimator *)

Example size_get :
  computeApproximateRequestSize
    {| Method := "GET"; ReqURL := Some (mkURL "http://a/b"); Proto := "HTTP/1.1";
       Header := {[ "Accept" := ["*/*"; "x"] ]}; Host := "a";
       ContentLength := 42; ctxTrace := None |} = 74.
Proof. vm_compute. reflexivity. Qed.

Example size_empty : computeApproximateRequestSize emptyRequest = 0.
Proof. vm_compute. reflexivity. Qed.

Lemma sumLen_nonneg values : 0 <= sumLen values.
Proof.
  induction values as [|v values IH]; simpl; [lia|].
  pose proof (len_nonneg v). lia.
Qed.

Lemma values_loop values : forall a,
  fold_left (fun s value => addInt s (len value)) values (wrapInt a)
  = wrapInt (a + sumLen values).
Proof.
  induction values as [|v values IH]; intros a; simpl.
  - f_equal. lia.
  - rewrite addInt_wrapInt, IH. f_equal. lia.
Qed.

Lemma headerStep_eq name values s :
  headerStep name values s = wrapInt (s + (len name + sumLen values)).
Proof.
  unfold headerStep, addInt. rewrite values_loop. f_equal. lia.
Qed.

Lemma headerStep_wrapInt name values a :
  headerStep name values (wrapInt a) = wrapInt (a + (len name + sumLen values)).
Proof. rewrite headerStep_eq. apply wrapInt_add_l. Qed.

Lemma headerStep_comm n1 v1 n2 v2 s :
  headerStep n1 v1 (headerStep n2 v2 s) = headerStep n2 v2 (headerStep n1 v1 s).
Proof.
  rewrite !headerStep_eq, !wrapInt_add_l. f_equal. lia.
Qed.

(** The loop over the header computes, up to wrap-around, the bytes of the
    header added to what was accumulated before. *)
Lemma header_loop (h : gmap string (list string)) a :
  map_fold headerStep (wrapInt a) h = wrapInt (a + headerBytes h).
Proof.
  unfold headerBytes. rewrite !map_fold_foldr.
  induction (map_to_list h) as [|[name values] l IH]; simpl.
  - f_equal. lia.
  - rewrite IH, headerStep_wrapInt. f_equal. lia.
Qed.

Lemma headerBytes_nonneg (h : gmap string (list string)) : 0 <= headerBytes h.
Proof.
  unfold headerBytes. rewrite map_fold_foldr.
  induction (map_to_list h) as [|[name values] l IH]; simpl; [lia|].
  pose proof (len_nonneg name). pose proof (sumLen_nonneg values). lia.
Qed.

(** Go ranges over a map in an unspecified order; the estimate does not
    depend on it. *)
Lemma header_loop_any_order (h : gmap string (list string)) l s :
  l ≡ₚ map_to_list h ->
  foldr (uncurry headerStep) s l = map_fold headerStep s h.
Proof.
  intros Hperm. rewrite map_fold_foldr.
  apply (foldr_permutation eq (uncurry headerStep) s); [|done].
  intros j1 [n1 v1] j2 [n2 v2] b _ _ _. simpl. apply headerStep_comm.
Qed.

(** The estimate is the specified sum, wrapped to [int]. *)
Lemma computeApproximateRequestSize_wrap r :
  computeApproximateRequestSize r = wrapInt (specRequestSize r).
Proof.
  unfold computeApproximateRequestSize, specRequestSize, int_of_int64.
  set (u := match ReqURL r with Some u => len (URL_String u) | None => 0 end).
  assert (Hu : match ReqURL r with
               | Some u => addInt 0 (len (URL_String u))
               | None => 0
               end = wrapInt u).
  { subst u. destruct (ReqURL r); [reflexivity|]. symmetry. by apply wrapInt_small. }
  rewrite Hu, !addInt_wrapInt, header_loop, addInt_wrapInt.
  destruct (Z.eqb (ContentLength r) (-1)).
  - f_equal. lia.
  - unfold addInt. rewrite wrapInt_add_l, wrapInt_add_r. f_equal.
Qed.

Lemma specRequestSize_nonneg r : -1 <= ContentLength r -> 0 <= specRequestSize r.
Proof.
  intros Hcl. unfold specRequestSize.
  pose proof (headerBytes_nonneg (Header r)).
  pose proof (len_nonneg (Method r)). pose proof (len_nonneg (Proto r)).
  pose proof (len_nonneg (Host r)).
  assert (0 <= match ReqURL r with Some u => len (URL_String u) | None => 0 end).
  { destruct (ReqURL r); [apply len_nonneg | lia]. }
  destruct (Z.eqb_spec (ContentLength r) (-1)); lia.
Qed.

(** C4, as amended.  On every request the estimator returns the sum of
    the lengths of the serialised URL (nothing when the URL is nil), the
    method, the protocol, every header name and every header value and
    the host, plus the declared content length unless that is exactly -1
    (any other length, a negative one included, is added as it is), the
    whole wrapped around to an [int].  When the declared content length
    is at least -1 and the sum does not exceed the largest [int], the
    estimate is exactly that sum, and it is non-negative.  The estimator
    is a total function: it returns on every request, the empty one
    included. *)
Theorem computeApproximateRequestSize_sum r :
  computeApproximateRequestSize r = wrapInt (specRequestSize r)
  /\ (ContentLength r <> -1 ->
      computeApproximateRequestSize r
      = wrapInt (computeApproximateRequestSize (withContentLength r (-1))
                 + ContentLength r))
  /\ (-1 <= ContentLength r ->
      specRequestSize r <= maxInt ->
      computeApproximateRequestSize r = specRequestSize r
      /\ 0 <= computeApproximateRequestSize r).
Proof.
  split; [apply computeApproximateRequestSize_wrap|]. split.
  - intros Hknown. rewrite !computeApproximateRequestSize_wrap, wrapInt_add_l.
    f_equal. unfold specRequestSize, withContentLength; simpl.
    destruct (Z.eqb_spec (ContentLength r) (-1)); [done | lia].
  - intros Hcl Hfit. pose proof (specRequestSize_nonneg r Hcl) as Hpos.
    rewrite computeApproximateRequestSize_wrap, wrapInt_small; [done|].
    unfold minInt, intSize. lia.
Qed.

Lemma computeApproximateRequestSize_sum_witness :
  (computeApproximateRequestSize getRequest = specRequestSize getRequest
   /\ 0 <= computeApproximateRequestSize getRequest)
  /\ computeApproximateRequestSize negativeLengthRequest
     = wrapInt (computeApproximateRequestSize
                  (withContentLength negativeLengthRequest (-1)) + -2).
Proof.
  split.
  - destruct (computeApproximateRequestSize_sum getRequest) as (_ & _ & Hexact).
    apply Hexact; vm_compute; discriminate.
  - destruct (computeApproximateRequestSize_sum negativeLengthRequest)
      as (_ & Hadded & _).
    apply Hadded. discriminate.
Defined.

(** C4, as stated, fails in two ways.  On [hugeRequest] the sum is
    2^63 + 2: the additions wrap around and the estimator returns a
    negative number, which is not the sum.  On [negativeLengthRequest] the
    declared length -2 is not the sentinel: it is added, and the estimator
    returns -2. *)
Lemma computeApproximateRequestSize_negative :
  (specRequestSize hugeRequest = 9223372036854775810
   /\ computeApproximateRequestSize hugeRequest = -9223372036854775806
   /\ ~ (0 <= computeApproximateRequestSize hugeRequest
         /\ computeApproximateRequestSize hugeRequest = specRequestSize hugeRequest))
  /\ (computeApproximateRequestSize negativeLengthRequest = -2
      /\ ~ 0 <= computeApproximateRequestSize negativeLengthRequest).
Proof.
  split.
  - split; [vm_compute; reflexivity|]. split; [vm_compute; reflexivity|].
    intros [Hpos _]. vm_compute in Hpos. apply Hpos. reflexivity.
  - split; [vm_compute; reflexivity|].
    intros Hpos. vm_compute in Hpos. apply Hpos. reflexivity.
Qed.

(** The sentinel is -1 alone: any other negative content length is added. *)
Example size_negative_length :
  computeApproximateRequestSize
    {| Method := ""; ReqURL := None; Proto := ""; Header := ∅; Host := "";
       ContentLength := -2; ctxTrace := None |} = -2.
Proof. vm_compute. reflexivity. Qed.

(** *** Monotonicity in a header value *)

Lemma sumLen_insert (values : list string) : forall j value value',
  values !! j = Some value ->
  sumLen (<[j := value']> values) = sumLen values - len value + len value'.
Proof.
  induction values as [|v values IH]; intros [|j] value value' Hj;
    simpl in *; try discriminate.
  - injection Hj as ->. lia.
  - rewrite (IH j value value' Hj). lia.
Qed.

Lemma headerBytes_insert (h : gmap string (list string)) name values values' :
  h !! name = Some values ->
  headerBytes (<[name := values']> h)
  = headerBytes h - sumLen values + sumLen values'.
Proof.
  intros Hname. unfold headerBytes.
  rewrite <- insert_delete_eq.
  rewrite map_fold_insert_L; [| intros; lia | apply lookup_delete_eq].
  rewrite (map_fold_delete_L _ _ name values h); [lia | intros; lia | done].
Qed.

(** C5, as amended.  For every request whose estimate is below the largest
    [int], appending one byte to any one of its header values increases
    the estimate by exactly one. *)
Theorem computeApproximateRequestSize_header_value_grows
    r name values j value c :
  Header r !! name = Some values ->
  values !! j = Some value ->
  computeApproximateRequestSize r < maxInt ->
  computeApproximateRequestSize
    (withHeader r (<[name := <[j := appendByte c value]> values]> (Header r)))
  = computeApproximateRequestSize r + 1.
Proof.
  intros Hname Hj Hlt.
  rewrite !computeApproximateRequestSize_wrap in *.
  rewrite <- wrapInt_succ by done. f_equal.
  unfold specRequestSize, withHeader; simpl.
  rewrite (headerBytes_insert _ _ _ _ Hname), (sumLen_insert _ _ _ _ Hj).
  unfold appendByte. rewrite len_append.
  change (len (String c "")) with 1. lia.
Qed.

Lemma computeApproximateRequestSize_header_value_grows_witness :
  computeApproximateRequestSize
    (withHeader getRequest
       (<["Accept" := <[1%nat := appendByte "y"%char "x"]> ["*/*"; "x"]]>
          (Header getRequest)))
  = computeApproximateRequestSize getRequest + 1.
Proof.
  apply (computeApproximateRequestSize_header_value_grows
           getRequest "Accept" ["*/*"; "x"] 1%nat "x" "y"%char);
    vm_compute; reflexivity.
Defined.

(** C5, as stated, fails: appending a byte to the header value of
    [brimRequest] takes the estimate from the largest [int] to the
    smallest. *)
Lemma computeApproximateRequestSize_header_value_wraps :
  computeApproximateRequestSize brimRequest = 9223372036854775807
  /\ computeApproximateRequestSize
       (withHeader brimRequest
          (<["X" := <[0%nat := appendByte "w"%char "v"]> ["v"]]> (Header brimRequest)))
     = -9223372036854775808
  /\ computeApproximateRequestSize
       (withHeader brimRequest
          (<["X" := <[0%nat := appendByte "w"%char "v"]> ["v"]]> (Header brimRequest)))
     <> computeApproximateRequestSize brimRequest + 1.
Proof.
  split; [vm_compute; reflexivity|]. split; [vm_compute; reflexivity|].
  vm_compute. discriminate.
Qed.

(** ** The layers *)

Section LayerFacts.

Variable ToLower : string -> string.

Abbreviation requestSizeLayer := (instrumentRoundTripperRequestSize ToLower).
Abbreviation responseContentLengthLayer :=
  (instrumentRoundTripperResponseContentLength ToLower).

Lemma requestSize_success obs next r s resp s1 :
  next r s = (Returned (Some resp) None, s1) ->
  requestSizeLayer obs next r s
  = (Returned (Some resp) None, record (requestSizeEvent ToLower obs resp r) s1).
Proof. intros Hnext. unfold instrumentRoundTripperRequestSize. by rewrite Hnext. Qed.

Lemma requestSize_failure obs next r s resp e s1 :
  next r s = (Returned resp (Some e), s1) ->
  requestSizeLayer obs next r s = (Returned resp (Some e), s1).
Proof. intros Hnext. unfold instrumentRoundTripperRequestSize. by rewrite Hnext. Qed.

Lemma responseContentLength_success obs next r s resp s1 :
  next r s = (Returned (Some resp) None, s1) ->
  responseContentLengthLayer obs next r s
  = (Returned (Some resp) None, record (responseContentLengthEvent ToLower obs resp r) s1).
Proof.
  intros Hnext. unfold instrumentRoundTripperResponseContentLength.
  by rewrite Hnext.
Qed.

Lemma responseContentLength_failure obs next r s resp e s1 :
  next r s = (Returned resp (Some e), s1) ->
  responseContentLengthLayer obs next r s = (Returned resp (Some e), s1).
Proof.
  intros Hnext. unfold instrumentRoundTripperResponseContentLength.
  by rewrite Hnext.
Qed.

(** A round tripper that returns neither a response nor an error breaks
    the contract of [RoundTrip]; the layers then dereference [nil]. *)
Lemma requestSize_nil_nil obs next r s s1 :
  next r s = (Returned None None, s1) ->
  requestSizeLayer obs next r s = (Panicked nilDereference, s1).
Proof. intros Hnext. unfold instrumentRoundTripperRequestSize. by rewrite Hnext. Qed.

Lemma responseContentLength_nil_nil obs next r s s1 :
  next r s = (Returned None None, s1) ->
  responseContentLengthLayer obs next r s = (Panicked nilDereference, s1).
Proof.
  intros Hnext. unfold instrumentRoundTripperResponseContentLength.
  by rewrite Hnext.
Qed.

(** Whatever the delegate answers, short of the pair of two [nil]s, the
    two layers answer the same. *)
Lemma requestSize_outcome obs next r s :
  fst (next r s) <> Returned None None ->
  fst (requestSizeLayer obs next r s) = fst (next r s).
Proof.
  unfold instrumentRoundTripperRequestSize.
  destruct (next r s) as [[[resp|] [e|]|msg] s1]; simpl; congruence.
Qed.

Lemma responseContentLength_outcome obs next r s :
  fst (next r s) <> Returned None None ->
  fst (responseContentLengthLayer obs next r s) = fst (next r s).
Proof.
  unfold instrumentRoundTripperResponseContentLength.
  destruct (next r s) as [[[resp|] [e|]|msg] s1]; simpl; congruence.
Qed.

(** *** The network transport under the trace *)

Lemma fire_newTrace i r start t0 :
  ctxTrace r = Some (start, newTrace i) ->
  forall ps s,
    fold_left (fire r t0) ps s
    = {| now := match ps with [] => now s | _ => t0 + snd (List.last ps (PhaseDNSStart, 0)) end;
         log := log s
                ++ map (fun p => phaseEvent i (fst p, t0 + snd p - start)) ps |}.
Proof.
  intros Hctx ps. induction ps as [|[ph off] ps IH]; intros s.
  - simpl. rewrite app_nil_r. by destruct s.
  - cbn [fold_left]. rewrite IH.
    unfold fire at 1 2. rewrite Hctx. cbn [fst snd].
    assert (Hh : exists ins name,
               hook (newTrace i) ph = Some (observeEvent ins name)
               /\ ins = phaseInstrument i ph /\ name = phaseName ph).
    { destruct ph; simpl; eauto. }
    destruct Hh as (ins & name & -> & -> & ->).
    unfold observeEvent, record, setNow; cbn [now log].
    f_equal.
    + destruct ps; reflexivity.
    + rewrite <- app_assoc. reflexivity.
Qed.

Lemma baseRoundTrip_traced i t r s :
  ctxTrace r = Some (now s, newTrace i) ->
  baseRoundTrip t r s
  = (outcomeOf (result (t (clearTrace r))),
     {| now := now s + elapsed (t (clearTrace r));
        log := log s ++ map (phaseEvent i) (phases (t (clearTrace r))) |}).
Proof.
  intros Hctx. unfold baseRoundTrip.
  rewrite (fire_newTrace i r (now s) (now s) Hctx).
  unfold setNow; cbn [now log]. do 3 f_equal.
  apply map_ext. intros [ph off]. unfold phaseEvent; cbn [fst snd].
  by rewrite Z.add_simpl_l.
Qed.

End LayerFacts.

(** ** The chain *)

Section ChainFacts.

Variable ToLower : string -> string.
Variable DefaultTransport : RoundTripper.

Abbreviation chain := (instrumentedTransport ToLower).

Lemma chain_run i t r s :
  chain i (baseRoundTrip t) r s
  = (outcomeOf (result (t (clearTrace r))),
     {| now := now s + elapsed (t (clearTrace r));
        log := log s ++ chainEvents ToLower i r (t (clearTrace r)) |}).
Proof.
  unfold instrumentedTransport, InstrumentRoundTripperInFlight,
    InstrumentRoundTripperCounter, InstrumentRoundTripperTrace,
    instrumentRoundTripperRequestSize, instrumentRoundTripperResponseContentLength,
    InstrumentRoundTripperDuration.
  rewrite (baseRoundTrip_traced i) by reflexivity.
  unfold chainEvents. change (clearTrace _) with (clearTrace r).
  destruct (result (t (clearTrace r))) as [resp|e]; simpl.
  all: unfold record; simpl.
  all: rewrite Z.add_simpl_l, <- !app_assoc; reflexivity.
Qed.

Lemma baseRoundTrip_outcome t r s :
  fst (baseRoundTrip t r s) = outcomeOf (result (t (clearTrace r))).
Proof. reflexivity. Qed.

Lemma outcomeOf_answers res : outcomeOf res <> Returned None None.
Proof. by destruct res. Qed.

(** C1.  For every request and every transport, each layer put directly
    around the transport, and the whole chain, returns exactly the response
    and the error the transport produced; the transport runs once (the
    clock advances by the time of one run). *)
Theorem layers_return_transport_outcome (t : NetworkTransport) (r : Request) (s : State) :
  (forall obs,
     fst (instrumentRoundTripperRequestSize ToLower obs (baseRoundTrip t) r s)
     = fst (baseRoundTrip t r s))
  /\ (forall obs,
       fst (instrumentRoundTripperResponseContentLength ToLower obs (baseRoundTrip t) r s)
       = fst (baseRoundTrip t r s))
  /\ (forall gauge,
       fst (InstrumentRoundTripperInFlight gauge (baseRoundTrip t) r s)
       = fst (baseRoundTrip t r s))
  /\ (forall counter,
       fst (InstrumentRoundTripperCounter ToLower counter (baseRoundTrip t) r s)
       = fst (baseRoundTrip t r s))
  /\ (forall it,
       fst (InstrumentRoundTripperTrace it (baseRoundTrip t) r s)
       = fst (baseRoundTrip t r s))
  /\ (forall obs,
       fst (InstrumentRoundTripperDuration ToLower obs (baseRoundTrip t) r s)
       = fst (baseRoundTrip t r s))
  /\ (forall i,
       fst (chain i (baseRoundTrip t) r s) = fst (baseRoundTrip t r s)
       /\ now (snd (chain i (baseRoundTrip t) r s))
          = now s + elapsed (t (clearTrace r)))
  /\ fst (baseRoundTrip t r s)
     = match result (t (clearTrace r)) with
       | inl resp => Returned (Some resp) None
       | inr e => Returned None (Some e)
       end.
Proof.
  repeat match goal with |- _ /\ _ => split end; intros.
  - apply requestSize_outcome. rewrite baseRoundTrip_outcome. apply outcomeOf_answers.
  - apply responseContentLength_outcome. rewrite baseRoundTrip_outcome.
    apply outcomeOf_answers.
  - reflexivity.
  - unfold InstrumentRoundTripperCounter, baseRoundTrip.
    by destruct (result (t (clearTrace r))).
  - reflexivity.
  - unfold InstrumentRoundTripperDuration, baseRoundTrip.
    by destruct (result (t (clearTrace r))).
  - by rewrite chain_run.
  - rewrite baseRoundTrip_outcome. by destruct (result (t (clearTrace r))).
Qed.

(** *** Which instruments a request touches *)

Lemma phaseEvents_elsewhere i ins ps :
  (forall ph, String.eqb (Name (phaseInstrument i ph)) (Name ins) = false) ->
  List.filter (targets ins) (map (phaseEvent i) ps) = [].
Proof.
  intros Hne. induction ps as [|[ph off] ps IH]; [reflexivity|].
  simpl. unfold targets at 1. simpl. by rewrite Hne.
Qed.

Ltac other_instrument :=
  let ph := fresh "ph" in intros ph; destruct ph; reflexivity.

(** C3.  Through the chain of a metric set, a request whose transport call
    fails records nothing on the completion counter, the request-size
    histogram or the response-size histogram; a request whose transport
    call succeeds records exactly one observation on the request-size
    histogram and exactly one on the response-size histogram, each
    labelled by the response's status code and the lower-cased method. *)
Theorem observations_follow_outcome namespace constLabels (t : NetworkTransport) r s :
  let i := newOutgoingInstrumentation namespace constLabels in
  exists evs,
    log (snd (chain i (baseRoundTrip t) r s)) = log s ++ evs
    /\ match result (t (clearTrace r)) with
       | inr _ =>
           List.filter (targets (requests i)) evs = []
           /\ List.filter (targets (requestSize i)) evs = []
           /\ List.filter (targets (responseContentLength i)) evs = []
       | inl resp =>
           List.filter (targets (requestSize i)) evs
           = [mkEvent (requestSize i)
                {[ "code" := Sprint (StatusCode resp); "method" := ToLower (Method r) ]}
                (Observe (float64_of_int (computeApproximateRequestSize r)))]
           /\ List.filter (targets (responseContentLength i)) evs
              = [mkEvent (responseContentLength i)
                   {[ "code" := Sprint (StatusCode resp);
                      "method" := ToLower (Method r) ]}
                   (Observe (float64_of_int (RespContentLength resp)))]
       end.
Proof.
  intros i. exists (chainEvents ToLower i r (t (clearTrace r))).
  split; [by rewrite chain_run|].
  unfold chainEvents.
  destruct (result (t (clearTrace r))) as [resp|e];
    repeat match goal with |- _ /\ _ => split end;
    rewrite !List.filter_app, phaseEvents_elsewhere by other_instrument;
    reflexivity.
Qed.

(** C6.  When its delegate returns a response [resp] and no error, the
    response-size layer returns them and records one observation of
    [float64(resp.ContentLength)], whatever the declared length is, -1
    included. *)
Theorem response_length_observed_as_declared obs next r s resp s1 :
  next r s = (Returned (Some resp) None, s1) ->
  instrumentRoundTripperResponseContentLength ToLower obs next r s
  = (Returned (Some resp) None,
     {| now := now s1;
        log := log s1
               ++ [mkEvent obs
                     {[ "code" := Sprint (StatusCode resp);
                        "method" := ToLower (Method r) ]}
                     (Observe (float64_of_int (RespContentLength resp)))] |}).
Proof. intros Hnext. by rewrite (responseContentLength_success _ _ _ _ _ _ _ Hnext). Qed.

(** *** The factory *)

Abbreviation baseTransport base :=
  (match Transport base with Some t => t | None => DefaultTransport end).

Lemma instrumentClientWithConstLabels_some {R : Type} `{Registerer R}
    namespace c (reg : R) constLabels h base :
  deref h c = Some base ->
  instrumentClientWithConstLabels ToLower DefaultTransport namespace c reg constLabels h
  = (Done (Some (length h),
           snd (Register reg (newOutgoingInstrumentation namespace constLabels))),
     h ++ [{| CheckRedirect := CheckRedirect base;
              Jar := Jar base;
              Timeout := Timeout base;
              Transport :=
                Some (chain (newOutgoingInstrumentation namespace constLabels)
                            (baseTransport base)) |}],
     fst (Register reg (newOutgoingInstrumentation namespace constLabels))).
Proof.
  intros Hbase. unfold instrumentClientWithConstLabels. rewrite Hbase.
  by destruct (Register reg _).
Qed.

(** Without a base client there is nothing to copy: [c.Transport]
    dereferences [nil]. *)
Lemma instrumentClientWithConstLabels_nil {R : Type} `{Registerer R}
    namespace (reg : R) constLabels h :
  instrumentClientWithConstLabels ToLower DefaultTransport namespace None reg constLabels h
  = (Panic nilDereference, h, reg).
Proof. reflexivity. Qed.

Lemma deref_app h h' p b : deref h p = Some b -> deref (h ++ h') p = Some b.
Proof.
  destruct p as [l|]; simpl; [|done]. intros Hl. by apply lookup_app_l_Some.
Qed.

Lemma deref_fresh h (x : HttpClient) : deref (h ++ [x]) (Some (length h)) = Some x.
Proof. simpl. by rewrite list_lookup_middle. Qed.

(** C2.  The transport of the client the factory builds is the in-flight
    layer around the completion-counter layer around the phase-trace layer
    around the request-size layer around the response-size layer around
    the duration layer around the base transport (the base client's, or
    the default one).  Accordingly, when the base transport is a network
    transport that succeeds, the instruments
    are called in this order: gauge up, the phase hooks, duration,
    response size, request size, counter, gauge down. *)
Theorem chain_nesting_order {R : Type} `{Registerer R}
    namespace c (reg : R) constLabels h base :
  deref h c = Some base ->
  let i := newOutgoingInstrumentation namespace constLabels in
  let h' := snd (fst (instrumentClientWithConstLabels ToLower DefaultTransport
                        namespace c reg constLabels h)) in
  exists client,
    h' !! length h = Some client
    /\ Transport client
       = Some (InstrumentRoundTripperInFlight (inflight i)
                (InstrumentRoundTripperCounter ToLower (requests i)
                  (InstrumentRoundTripperTrace (newTrace i)
                    (instrumentRoundTripperRequestSize ToLower (requestSize i)
                      (instrumentRoundTripperResponseContentLength ToLower
                         (responseContentLength i)
                        (InstrumentRoundTripperDuration ToLower (duration i)
                           (baseTransport base)))))))
    /\ forall (t : NetworkTransport) r s resp rt,
         baseTransport base = baseRoundTrip t ->
         result (t (clearTrace r)) = inl resp ->
         Transport client = Some rt ->
         log (snd (rt r s))
         = log s
           ++ [mkEvent (inflight i) ∅ Inc]
           ++ map (phaseEvent i) (phases (t (clearTrace r)))
           ++ [mkEvent (duration i) {[ "method" := ToLower (Method r) ]}
                 (Observe (Seconds (elapsed (t (clearTrace r)))));
               mkEvent (responseContentLength i) (codeMethod ToLower resp r)
                 (Observe (float64_of_int (RespContentLength resp)));
               mkEvent (requestSize i) (codeMethod ToLower resp r)
                 (Observe (float64_of_int (computeApproximateRequestSize r)));
               mkEvent (requests i) (codeMethod ToLower resp r) Inc;
               mkEvent (inflight i) ∅ Dec].
Proof.
  intros Hbase i h'. subst h'.
  rewrite (instrumentClientWithConstLabels_some _ _ _ _ _ _ Hbase). cbn [fst snd].
  eexists. split; [apply list_lookup_middle; reflexivity|].
  split; [reflexivity|].
  intros t r s resp rt Ht Hres Hrt. cbn [Transport] in Hrt.
  injection Hrt as <-. rewrite Ht, chain_run. cbn [snd log].
  unfold chainEvents. by rewrite Hres.
Qed.

(** C7.  Given a base client, [ForRecipient] returns a pointer to a new
    client whose redirect policy, cookie jar and timeout are the base
    client's and whose transport is the chain around the base client's
    transport, or around the default transport when the base client has
    none; every client that existed, the base client among them, is as it
    was. *)
Theorem ForRecipient_new_client {R : Type} `{Registerer R}
    (c : Client R) recipient h base :
  deref h (Client_Client c) = Some base ->
  let i := newOutgoingInstrumentation (Client_Namespace c) {[ "recipient" := recipient ]} in
  exists l client err reg',
    ForRecipient ToLower DefaultTransport c recipient h
    = (Done (Some l, err), h ++ [client], reg')
    /\ deref (h ++ [client]) (Some l) = Some client
    /\ deref h (Some l) = None
    /\ Some l <> Client_Client c
    /\ CheckRedirect client = CheckRedirect base
    /\ Jar client = Jar base
    /\ Timeout client = Timeout base
    /\ Transport client = Some (chain i (baseTransport base))
    /\ (Transport base = None -> Transport client = Some (chain i DefaultTransport))
    /\ deref (h ++ [client]) (Client_Client c) = Some base
    /\ (forall p b, deref h p = Some b -> deref (h ++ [client]) p = Some b).
Proof.
  intros Hbase i. unfold ForRecipient.
  rewrite (instrumentClientWithConstLabels_some _ _ _ _ _ _ Hbase).
  do 4 eexists. split; [reflexivity|].
  assert (Hfresh : deref h (Some (length h)) = None).
  { simpl. apply lookup_ge_None. lia. }
  repeat match goal with |- _ /\ _ => split end; try reflexivity.
  - apply deref_fresh.
  - exact Hfresh.
  - intros Heq. rewrite <- Heq, Hfresh in Hbase. discriminate.
  - intros Hnone. cbn [Transport]. by rewrite Hnone.
  - by apply deref_app.
  - intros p b. apply deref_app.
Qed.



(** C10.  Given a base client, when registering the metric set fails with
    an error, [ForRecipient] returns that error together with a non-nil
    pointer to the fully built client; the pointer and the client are the
    ones it returns with any other registerer, whatever that one
    answers. *)
Theorem ForRecipient_client_despite_error {R : Type} `{Registerer R}
    (c : Client R) recipient h base e :
  deref h (Client_Client c) = Some base ->
  let i := newOutgoingInstrumentation (Client_Namespace c) {[ "recipient" := recipient ]} in
  snd (Register (Client_Registerer c) i) = Some e ->
  exists l client reg',
    ForRecipient ToLower DefaultTransport c recipient h
    = (Done (Some l, Some e), h ++ [client], reg')
    /\ deref (h ++ [client]) (Some l) = Some client
    /\ CheckRedirect client = CheckRedirect base
    /\ Jar client = Jar base
    /\ Timeout client = Timeout base
    /\ Transport client = Some (chain i (baseTransport base))
    /\ (forall (R2 : Type) (HR2 : Registerer R2) (reg2 : R2),
          exists err2 reg2',
            ForRecipient ToLower DefaultTransport
              (mkClient (Client_Client c) reg2 (Client_Namespace c)) recipient h
            = (Done (Some l, err2), h ++ [client], reg2')).
Proof.
  intros Hbase i Herr. unfold ForRecipient.
  rewrite (instrumentClientWithConstLabels_some _ _ _ _ _ _ Hbase).
  fold i. rewrite Herr.
  do 3 eexists. split; [reflexivity|].
  repeat match goal with |- _ /\ _ => split end; try reflexivity.
  - apply deref_fresh.
  - intros R2 HR2 reg2. cbn [Client_Client Client_Namespace Client_Registerer].
    rewrite (instrumentClientWithConstLabels_some _ _ _ _ _ _ Hbase).
    by do 2 eexists.
Qed.

End ChainFacts.

(** ** The metric set *)

Lemma instruments_complete i1 i2 : instruments i1 = instruments i2 -> i1 = i2.
Proof.
  destruct i1, i2. unfold instruments; simpl. intros Heq.
  injection Heq as -> -> -> -> -> -> ->. reflexivity.
Qed.

(** C9, as amended.  The metric set is a bundle of exactly seven
    instruments, one counter, five histograms and one gauge, with distinct
    names, all with the same namespace, subsystem tag and constant labels;
    [Describe] and [Collect] each delegate to every one of them, in the
    same fixed order. *)
Theorem metric_set_instruments namespace constLabels :
  let i := newOutgoingInstrumentation namespace constLabels in
  length (instruments i) = 7%nat
  /\ countKind CounterVec (instruments i) = 1%nat
  /\ countKind HistogramVec (instruments i) = 5%nat
  /\ countKind Gauge (instruments i) = 1%nat
  /\ NoDup (map Name (instruments i))
  /\ Forall (fun ins => Namespace ins = namespace
                        /\ Subsystem ins = subsystemHTTPOutgoing
                        /\ ConstLabels ins = constLabels) (instruments i)
  /\ Describe i = flat_map Describe (instruments i)
  /\ (forall s, Collect i s = flat_map (fun ins => Collect ins s) (instruments i)).
Proof.
  intros i. repeat match goal with |- _ /\ _ => split end; try reflexivity.
  - apply NoDup_ListNoDup. simpl.
    repeat (constructor; [simpl; intuition discriminate|]). constructor.
  - repeat constructor.
  - intros s. simpl. by rewrite app_nil_r.
Qed.

(** C9, as stated, fails: the metric set of recipient [billing] has seven
    instruments, five of them histograms, not six and four. *)
Lemma metric_set_not_six :
  length (instruments billing) = 7%nat
  /\ countKind HistogramVec (instruments billing) = 5%nat
  /\ ~ (length (instruments billing) = 6%nat
        /\ countKind CounterVec (instruments billing) = 1%nat
        /\ countKind HistogramVec (instruments billing) = 4%nat
        /\ countKind Gauge (instruments billing) = 1%nat).
Proof.
  split; [reflexivity|]. split; [reflexivity|].
  intros [Hsix _]. discriminate Hsix.
Qed.

(** ** A run of the whole *)

(** The scenario of the specification: a base client with no transport
    of its own, [ForRecipient] for [billing], a GET answered by 200 with 42
    bytes. *)
Example scenario_get_200 :
  exists l h reg client rt,
    ForRecipient asciiToLower (baseRoundTrip okTransport)
      (billingClient []) "billing" [baseClient]
    = (Done (Some l, None), h, reg)
    /\ h !! l = Some client /\ Transport client = Some rt
    /\ Describe billing = reg
    /\ rt getRequest startState
       = (Returned (Some {| StatusCode := 200; RespContentLength := 42 |}) None,
          {| now := 108;
             log := [mkEvent (inflight billing) ∅ Inc;
                     mkEvent (dnsDuration billing) {[ "event" := "dns_start" ]}
                       (Observe (Seconds 1));
                     mkEvent (dnsDuration billing) {[ "event" := "dns_done" ]}
                       (Observe (Seconds 3));
                     mkEvent (duration billing) {[ "method" := "get" ]}
                       (Observe (Seconds 8));
                     mkEvent (responseContentLength billing)
                       {[ "code" := "200"; "method" := "get" ]}
                       (Observe (float64_of_int 42));
                     mkEvent (requestSize billing)
                       {[ "code" := "200"; "method" := "get" ]}
                       (Observe (float64_of_int 74));
                     mkEvent (requests billing)
                       {[ "code" := "200"; "method" := "get" ]} Inc;
                     mkEvent (inflight billing) ∅ Dec] |}).
Proof.
  do 5 eexists. split; [reflexivity|]. split; [reflexivity|].
  split; [reflexivity|]. split; [reflexivity|].
  vm_compute. reflexivity.
Qed.

(** A request to a host that refuses the connection: the error reaches
    the caller, the duration is observed, the counter and the size
    histograms are not touched. *)
Example scenario_refused :
  instrumentedTransport asciiToLower billing (baseRoundTrip refusedTransport)
    getRequest startState
  = (Returned None (Some "connection refused"),
     {| now := 102;
        log := [mkEvent (inflight billing) ∅ Inc;
                mkEvent (duration billing) {[ "method" := "get" ]}
                  (Observe (Seconds 2));
                mkEvent (inflight billing) ∅ Dec] |}).
Proof. vm_compute. reflexivity. Qed.

(** Registering the same recipient twice in one registry fails, and the
    client is built all the same. *)
Example scenario_registered_twice :
  exists l h client,
    ForRecipient asciiToLower (baseRoundTrip okTransport)
      (billingClient (Describe billing)) "billing" [baseClient]
    = (Done (Some l, Some duplicateError), h, Describe billing)
    /\ h !! l = Some client
    /\ Transport client
       = Some (instrumentedTransport asciiToLower billing (baseRoundTrip okTransport)).
Proof.
  do 3 eexists. split; [reflexivity|]. split; reflexivity.
Qed.

(** ** Instances of the theorems *)

Lemma chain_nesting_order_witness :
  exists client,
    snd (fst (instrumentClientWithConstLabels asciiToLower (baseRoundTrip okTransport)
                "app" (Some 0%nat) ([] : Registry)
                {[ "recipient" := "billing" ]} [baseClient])) !! 1%nat
    = Some client
    /\ forall r s rt,
         Transport client = Some rt ->
         log (snd (rt r s))
         = log s
           ++ [mkEvent (inflight billing) ∅ Inc]
           ++ map (phaseEvent billing) [(PhaseDNSStart, 1); (PhaseDNSDone, 3)]
           ++ [mkEvent (duration billing) {[ "method" := asciiToLower (Method r) ]}
                 (Observe (Seconds 8));
               mkEvent (responseContentLength billing)
                 (codeMethod asciiToLower {| StatusCode := 200; RespContentLength := 42 |} r)
                 (Observe (float64_of_int 42));
               mkEvent (requestSize billing)
                 (codeMethod asciiToLower {| StatusCode := 200; RespContentLength := 42 |} r)
                 (Observe (float64_of_int (computeApproximateRequestSize r)));
               mkEvent (requests billing)
                 (codeMethod asciiToLower {| StatusCode := 200; RespContentLength := 42 |} r)
                 Inc;
               mkEvent (inflight billing) ∅ Dec].
Proof.
  destruct (chain_nesting_order asciiToLower (baseRoundTrip okTransport)
              "app" (Some 0%nat) ([] : Registry) {[ "recipient" := "billing" ]}
              [baseClient] baseClient eq_refl)
    as (client & Hclient & _ & Horder).
  exists client. split; [exact Hclient|].
  intros r s rt Hrt.
  exact (Horder okTransport r s {| StatusCode := 200; RespContentLength := 42 |} rt
           eq_refl eq_refl Hrt).
Defined.

Lemma response_length_observed_as_declared_witness :
  instrumentRoundTripperResponseContentLength asciiToLower
    (responseContentLength billing) (baseRoundTrip chunkedTransport)
    getRequest startState
  = (Returned (Some {| StatusCode := 200; RespContentLength := -1 |}) None,
     {| now := 108;
        log := [mkEvent (responseContentLength billing)
                  {[ "code" := "200"; "method" := "get" ]}
                  (Observe (float64_of_int (-1)))] |}).
Proof.
  apply (response_length_observed_as_declared asciiToLower
           (responseContentLength billing) (baseRoundTrip chunkedTransport)
           getRequest startState {| StatusCode := 200; RespContentLength := -1 |}
           {| now := 108; log := [] |}).
  reflexivity.
Defined.

Lemma ForRecipient_new_client_witness :
  exists l client err reg',
    ForRecipient asciiToLower (baseRoundTrip okTransport)
      (billingClient []) "billing" [baseClient]
    = (Done (Some l, err), [baseClient] ++ [client], reg')
    /\ Jar client = Some 7%positive
    /\ Timeout client = 30000000000
    /\ Transport client
       = Some (instrumentedTransport asciiToLower billing (baseRoundTrip okTransport))
    /\ deref ([baseClient] ++ [client]) (Some 0%nat) = Some baseClient.
Proof.
  destruct (ForRecipient_new_client asciiToLower (baseRoundTrip okTransport)
              (billingClient []) "billing" [baseClient] baseClient eq_refl)
    as (l & client & err & reg' & Hrun & _ & _ & _ & _ & Hjar & Htimeout & _
        & Hdefault & Hbase & _).
  exists l, client, err, reg'.
  repeat match goal with |- _ /\ _ => split end;
    [exact Hrun | exact Hjar | exact Htimeout | exact (Hdefault eq_refl) | exact Hbase].
Defined.

Lemma ForRecipient_client_despite_error_witness :
  exists l client reg',
    ForRecipient asciiToLower (baseRoundTrip okTransport)
      (billingClient (Describe billing)) "billing" [baseClient]
    = (Done (Some l, Some duplicateError), [baseClient] ++ [client], reg')
    /\ Transport client
       = Some (instrumentedTransport asciiToLower billing (baseRoundTrip okTransport)).
Proof.
  assert (Hfails : snd (Register (Client_Registerer (billingClient (Describe billing)))
                          (newOutgoingInstrumentation
                             (Client_Namespace (billingClient (Describe billing)))
                             {[ "recipient" := "billing" ]}))
                   = Some duplicateError) by reflexivity.
  destruct (ForRecipient_client_despite_error asciiToLower (baseRoundTrip okTransport)
              (billingClient (Describe billing)) "billing" [baseClient] baseClient
              duplicateError eq_refl Hfails)
    as (l & client & reg' & Hrun & _ & _ & _ & _ & Htransport & _).
  exists l, client, reg'. split; [exact Hrun | exact Htransport].
Defined.

(** * Further properties *)

(** ** The size estimator *)

Lemma headerBytes_entries (h : gmap string (list string)) :
  headerBytes h = entriesBytes (map_to_list h).
Proof.
  unfold headerBytes, entriesBytes. rewrite map_fold_foldr.
  induction (map_to_list h) as [|[name values] l IH]; simpl; [done|].
  by rewrite IH.
Qed.

Lemma entriesBytes_perm l1 l2 : l1 ≡ₚ l2 -> entriesBytes l1 = entriesBytes l2.
Proof. induction 1; simpl; lia. Qed.

Lemma ordered_loop l : forall a,
  fold_left (fun s '(name, values) => headerStep name values s) l (wrapInt a)
  = wrapInt (a + entriesBytes l).
Proof.
  induction l as [|[name values] l IH]; intros a; simpl.
  - f_equal. lia.
  - rewrite headerStep_wrapInt, IH. f_equal. lia.
Qed.

Lemma computeApproximateRequestSizeIn_wrap order r :
  computeApproximateRequestSizeIn order r
  = wrapInt (match ReqURL r with Some u => len (URL_String u) | None => 0 end
             + len (Method r) + len (Proto r) + entriesBytes order + len (Host r)
             + (if Z.eqb (ContentLength r) (-1) then 0 else ContentLength r)).
Proof.
  unfold computeApproximateRequestSizeIn, int_of_int64.
  set (u := match ReqURL r with Some u => len (URL_String u) | None => 0 end).
  assert (Hu : match ReqURL r with
               | Some u => addInt 0 (len (URL_String u))
               | None => 0
               end = wrapInt u).
  { subst u. destruct (ReqURL r); [reflexivity|]. symmetry. by apply wrapInt_small. }
  rewrite Hu, !addInt_wrapInt, ordered_loop, addInt_wrapInt.
  destruct (Z.eqb (ContentLength r) (-1)).
  - f_equal. lia.
  - unfold addInt. rewrite wrapInt_add_l, wrapInt_add_r. f_equal.
Qed.

(** X1.  In whatever order [range r.Header] hands out the entries of the
    header map, the estimator returns the same number. *)
Theorem computeApproximateRequestSize_any_order order r :
  order ≡ₚ map_to_list (Header r) ->
  computeApproximateRequestSizeIn order r = computeApproximateRequestSize r.
Proof.
  intros Hperm.
  rewrite computeApproximateRequestSizeIn_wrap, computeApproximateRequestSize_wrap.
  unfold specRequestSize.
  by rewrite headerBytes_entries, (entriesBytes_perm _ _ Hperm).
Qed.

Lemma computeApproximateRequestSize_any_order_witness :
  computeApproximateRequestSizeIn [("B", ["22"; "333"]); ("A", ["1"])] twoHeaderRequest
  = computeApproximateRequestSize twoHeaderRequest
  /\ computeApproximateRequestSizeIn [("A", ["1"]); ("B", ["22"; "333"])] twoHeaderRequest
     = computeApproximateRequestSize twoHeaderRequest.
Proof.
  split; apply computeApproximateRequestSize_any_order; vm_compute;
    first [reflexivity | apply perm_swap].
Defined.

(** X2.  On every request the estimate is an [int], and it differs from
    the exact sum of the lengths by a multiple of 2^64: beyond the range
    of [int] the code wraps around, it neither fails nor saturates. *)
Theorem computeApproximateRequestSize_modular r :
  minInt <= computeApproximateRequestSize r <= maxInt
  /\ (computeApproximateRequestSize r - specRequestSize r) mod 2 ^ intSize = 0.
Proof.
  rewrite computeApproximateRequestSize_wrap. split; [apply wrapInt_range|].
  generalize (specRequestSize r). intros z.
  unfold wrapInt, intSize.
  change (2 ^ (64 - 1)) with 9223372036854775808.
  change (2 ^ 64) with 18446744073709551616.
  rewrite (Z.mod_eq (z + 9223372036854775808) 18446744073709551616) by lia.
  replace (z + 9223372036854775808
           - 18446744073709551616 * ((z + 9223372036854775808) / 18446744073709551616)
           - 9223372036854775808 - z)
    with (- ((z + 9223372036854775808) / 18446744073709551616) * 18446744073709551616)
    by lia.
  apply Z.mod_mul. lia.
Qed.

(** X3.  A request of unknown content length (-1) has the estimate of the
    same request with content length 0. *)
Theorem computeApproximateRequestSize_unknown_length r :
  computeApproximateRequestSize (withContentLength r (-1))
  = computeApproximateRequestSize (withContentLength r 0).
Proof.
  rewrite !computeApproximateRequestSize_wrap. reflexivity.
Qed.

Lemma headerBytes_insert_new (h : gmap string (list string)) name values :
  h !! name = None ->
  headerBytes (<[name := values]> h) = headerBytes h + (len name + sumLen values).
Proof.
  intros Hname. unfold headerBytes.
  rewrite map_fold_insert_L; [lia | intros; lia | done].
Qed.

Lemma wrapInt_shift z d :
  minInt <= wrapInt z + d <= maxInt -> wrapInt (z + d) = wrapInt z + d.
Proof. intros Hfit. rewrite <- wrapInt_add_l. by apply wrapInt_small. Qed.

(** X4.  Adding a header the request does not have raises the estimate by
    the length of its name plus the lengths of its values, as long as the
    result does not exceed the largest [int]. *)
Theorem computeApproximateRequestSize_header_added r name values :
  Header r !! name = None ->
  computeApproximateRequestSize r + (len name + sumLen values) <= maxInt ->
  computeApproximateRequestSize (withHeader r (<[name := values]> (Header r)))
  = computeApproximateRequestSize r + (len name + sumLen values).
Proof.
  intros Hname Hfit. rewrite !computeApproximateRequestSize_wrap in *.
  rewrite <- wrapInt_shift.
  - f_equal. unfold specRequestSize, withHeader; simpl.
    rewrite (headerBytes_insert_new _ _ _ Hname). lia.
  - pose proof (wrapInt_range (specRequestSize r)).
    pose proof (len_nonneg name). pose proof (sumLen_nonneg values). lia.
Qed.

Lemma computeApproximateRequestSize_header_added_witness :
  computeApproximateRequestSize
    (withHeader getRequest (<["X-Id" := ["7"; "89"]]> (Header getRequest)))
  = computeApproximateRequestSize getRequest + (len "X-Id" + sumLen ["7"; "89"]).
Proof.
  apply (computeApproximateRequestSize_header_added getRequest "X-Id" ["7"; "89"]);
    vm_compute; [reflexivity | discriminate].
Defined.

(** X5.  Replacing the values of a header the request has changes the
    estimate by the difference of the total lengths of the values, as long
    as the result stays an [int]. *)
Theorem computeApproximateRequestSize_header_replaced r name values values' :
  Header r !! name = Some values ->
  minInt <= computeApproximateRequestSize r + (sumLen values' - sumLen values)
         <= maxInt ->
  computeApproximateRequestSize (withHeader r (<[name := values']> (Header r)))
  = computeApproximateRequestSize r + (sumLen values' - sumLen values).
Proof.
  intros Hname Hfit. rewrite !computeApproximateRequestSize_wrap in *.
  rewrite <- wrapInt_shift by done.
  f_equal. unfold specRequestSize, withHeader; simpl.
  rewrite (headerBytes_insert _ _ _ _ Hname). lia.
Qed.

Lemma computeApproximateRequestSize_header_replaced_witness :
  computeApproximateRequestSize
    (withHeader getRequest (<["Accept" := ["text/html"]]> (Header getRequest)))
  = computeApproximateRequestSize getRequest
    + (sumLen ["text/html"] - sumLen ["*/*"; "x"]).
Proof.
  apply (computeApproximateRequestSize_header_replaced
           getRequest "Accept" ["*/*"; "x"] ["text/html"]);
    vm_compute; [reflexivity | split; discriminate].
Defined.

(** X6.  The estimate depends on the values of a header only through their
    total length: regrouping the same bytes into other values, into one or
    into several, leaves it unchanged, on every request. *)
Theorem computeApproximateRequestSize_values_regrouped r name values values' :
  Header r !! name = Some values ->
  sumLen values' = sumLen values ->
  computeApproximateRequestSize (withHeader r (<[name := values']> (Header r)))
  = computeApproximateRequestSize r.
Proof.
  intros Hname Hsame. rewrite !computeApproximateRequestSize_wrap.
  f_equal. unfold specRequestSize, withHeader; simpl.
  rewrite (headerBytes_insert _ _ _ _ Hname). lia.
Qed.

Lemma computeApproximateRequestSize_values_regrouped_witness :
  computeApproximateRequestSize
    (withHeader getRequest (<["Accept" := ["*/"; "*x"]]> (Header getRequest)))
  = computeApproximateRequestSize getRequest.
Proof.
  apply (computeApproximateRequestSize_values_regrouped
           getRequest "Accept" ["*/*"; "x"] ["*/"; "*x"]);
    vm_compute; reflexivity.
Defined.

(** ** The two layers of this package, around any delegate *)

Section LayerEdges.

Variable ToLower : string -> string.

Abbreviation sizeLayer := (instrumentRoundTripperRequestSize ToLower).
Abbreviation lengthLayer := (instrumentRoundTripperResponseContentLength ToLower).

(** X7.  When the delegate returns an error, with or without a response
    beside it, or panics, each of the two layers hands on exactly what the
    delegate produced and records nothing. *)
Theorem layers_silent_without_success obs (next : RoundTripper) r s out s1 :
  next r s = (out, s1) ->
  (forall resp, out <> Returned resp None) ->
  sizeLayer obs next r s = (out, s1) /\ lengthLayer obs next r s = (out, s1).
Proof.
  intros Hnext Hout.
  unfold instrumentRoundTripperRequestSize,
    instrumentRoundTripperResponseContentLength.
  rewrite Hnext.
  destruct out as [resp [e|]|msg]; [done| |done].
  by destruct (Hout resp).
Qed.

(** X8.  When the delegate returns neither a response nor an error, each
    of the two layers panics on the [nil] response it reads the status
    code of, and records nothing. *)
Theorem layers_panic_on_nil_response obs (next : RoundTripper) r s s1 :
  next r s = (Returned None None, s1) ->
  sizeLayer obs next r s = (Panicked nilDereference, s1)
  /\ lengthLayer obs next r s = (Panicked nilDereference, s1).
Proof.
  intros Hnext. split.
  - by apply requestSize_nil_nil.
  - by apply responseContentLength_nil_nil.
Qed.

(** X9.  When its delegate returns a response and no error, the
    request-size layer returns them and records one observation of the
    estimated size of the request, labelled by the status code and the
    lower-cased method. *)
Theorem request_size_observed obs (next : RoundTripper) r s resp s1 :
  next r s = (Returned (Some resp) None, s1) ->
  sizeLayer obs next r s
  = (Returned (Some resp) None,
     {| now := now s1;
        log := log s1
               ++ [mkEvent obs
                     {[ "code" := Sprint (StatusCode resp);
                        "method" := ToLower (Method r) ]}
                     (Observe (float64_of_int (computeApproximateRequestSize r)))] |}).
Proof. intros Hnext. by rewrite (requestSize_success _ _ _ _ _ _ _ Hnext). Qed.

(** X10.  Whatever the delegate does, each of the two layers leaves the
    clock and the records made so far as the delegate left them, and adds
    at most one record, on the instrument it was given. *)
Theorem layers_only_append obs (next : RoundTripper) r s :
  (now (snd (sizeLayer obs next r s)) = now (snd (next r s))
   /\ exists evs,
        log (snd (sizeLayer obs next r s)) = log (snd (next r s)) ++ evs
        /\ (length evs <= 1)%nat /\ Forall (fun e => target e = obs) evs)
  /\ (now (snd (lengthLayer obs next r s)) = now (snd (next r s))
      /\ exists evs,
           log (snd (lengthLayer obs next r s)) = log (snd (next r s)) ++ evs
           /\ (length evs <= 1)%nat /\ Forall (fun e => target e = obs) evs).
Proof.
  unfold instrumentRoundTripperRequestSize,
    instrumentRoundTripperResponseContentLength.
  assert (Hnone : forall l : list Event,
             exists evs, l = l ++ evs /\ (length evs <= 1)%nat
                         /\ Forall (fun e => target e = obs) evs).
  { intros l. exists []. rewrite app_nil_r. repeat split; [simpl; lia | constructor]. }
  assert (Hone : forall (l : list Event) lbl v,
             exists evs, l ++ [mkEvent obs lbl v] = l ++ evs /\ (length evs <= 1)%nat
                         /\ Forall (fun e => target e = obs) evs).
  { intros l lbl v. exists [mkEvent obs lbl v].
    repeat split; [simpl; lia | repeat constructor]. }
  destruct (next r s) as [[[resp|] [e|]|msg] s1]; simpl;
    (split; (split; [reflexivity|])); first [apply Hone | apply Hnone].
Qed.

(** X11.  The two layers as the factory nests them, the request-size layer
    around the response-size layer: when the delegate returns a response
    and no error they return them and record two observations, first the
    response's content length, then the request's estimated size, under
    the same labels. *)
Theorem size_layers_composed obs1 obs2 (next : RoundTripper) r s resp s1 :
  next r s = (Returned (Some resp) None, s1) ->
  sizeLayer obs1 (lengthLayer obs2 next) r s
  = (Returned (Some resp) None,
     {| now := now s1;
        log := log s1
               ++ [mkEvent obs2 (codeMethod ToLower resp r)
                     (Observe (float64_of_int (RespContentLength resp)));
                   mkEvent obs1 (codeMethod ToLower resp r)
                     (Observe (float64_of_int (computeApproximateRequestSize r)))] |}).
Proof.
  intros Hnext.
  rewrite (requestSize_success ToLower obs1 _ r s resp
             (record (responseContentLengthEvent ToLower obs2 resp r) s1)).
  - unfold record; simpl. by rewrite <- app_assoc.
  - by apply responseContentLength_success.
Qed.

(** X12.  The labels the two layers pass to [With] carry exactly the
    names [code] and [method], the variable labels the request-size and
    response-size histograms of the metric set are declared with. *)
Theorem size_labels_match_declaration namespace constLabels resp r :
  let i := newOutgoingInstrumentation namespace constLabels in
  dom (codeMethod ToLower resp r) = list_to_set (variableLabels (requestSize i))
  /\ dom (codeMethod ToLower resp r)
     = list_to_set (variableLabels (responseContentLength i))
  /\ size (codeMethod ToLower resp r) = length (variableLabels (requestSize i)).
Proof.
  intros i. unfold codeMethod. simpl.
  rewrite dom_insert_L, dom_singleton_L.
  split; [set_solver|]. split; [set_solver|].
  rewrite map_size_insert_None by done. by rewrite map_size_singleton.
Qed.

End LayerEdges.

Lemma layers_silent_without_success_witness :
  instrumentRoundTripperRequestSize asciiToLower (requestSize billing)
    (answering (Returned (Some okResponse) (Some "unexpected EOF")))
    getRequest startState
  = (Returned (Some okResponse) (Some "unexpected EOF"), startState)
  /\ instrumentRoundTripperResponseContentLength asciiToLower (requestSize billing)
       (answering (Returned (Some okResponse) (Some "unexpected EOF")))
       getRequest startState
     = (Returned (Some okResponse) (Some "unexpected EOF"), startState).
Proof.
  apply (layers_silent_without_success asciiToLower (requestSize billing)
           (answering (Returned (Some okResponse) (Some "unexpected EOF")))
           getRequest startState _ startState eq_refl).
  intros resp. discriminate.
Defined.

Lemma layers_panic_on_nil_response_witness :
  instrumentRoundTripperRequestSize asciiToLower (requestSize billing)
    (answering (Returned None None)) getRequest startState
  = (Panicked nilDereference, startState)
  /\ instrumentRoundTripperResponseContentLength asciiToLower (requestSize billing)
       (answering (Returned None None)) getRequest startState
     = (Panicked nilDereference, startState).
Proof.
  apply (layers_panic_on_nil_response asciiToLower (requestSize billing)
           (answering (Returned None None)) getRequest startState startState
           eq_refl).
Defined.

Lemma request_size_observed_witness :
  instrumentRoundTripperRequestSize asciiToLower (requestSize billing)
    (baseRoundTrip okTransport) getRequest startState
  = (Returned (Some okResponse) None,
     {| now := 108;
        log := [mkEvent (requestSize billing)
                  {[ "code" := "200"; "method" := "get" ]}
                  (Observe (float64_of_int 74))] |}).
Proof.
  apply (request_size_observed asciiToLower (requestSize billing)
           (baseRoundTrip okTransport) getRequest startState okResponse
           {| now := 108; log := [] |}).
  reflexivity.
Defined.

Lemma size_layers_composed_witness :
  instrumentRoundTripperRequestSize asciiToLower (requestSize billing)
    (instrumentRoundTripperResponseContentLength asciiToLower
       (responseContentLength billing) (baseRoundTrip okTransport))
    getRequest startState
  = (Returned (Some okResponse) None,
     {| now := 108;
        log := [mkEvent (responseContentLength billing)
                  {[ "code" := "200"; "method" := "get" ]}
                  (Observe (float64_of_int 42));
                mkEvent (requestSize billing)
                  {[ "code" := "200"; "method" := "get" ]}
                  (Observe (float64_of_int 74))] |}).
Proof.
  apply (size_layers_composed asciiToLower (requestSize billing)
           (responseContentLength billing) (baseRoundTrip okTransport)
           getRequest startState okResponse {| now := 108; log := [] |}).
  reflexivity.
Defined.

(** ** The factory *)

Section FactoryEdges.

Variable ToLower : string -> string.
Variable DefaultTransport : RoundTripper.

Abbreviation transportOf base :=
  (match Transport base with Some t => t | None => DefaultTransport end).

(** X13.  On a [Client] whose embedded [*http.Client] is [nil],
    [ForRecipient] panics when it reads the transport; the registerer has
    not been called and no client has been allocated. *)
Theorem ForRecipient_nil_client {R : Type} `{Registerer R}
    (c : Client R) recipient h :
  Client_Client c = None ->
  ForRecipient ToLower DefaultTransport c recipient h
  = (Panic nilDereference, h, Client_Registerer c).
Proof.
  intros Hnil. unfold ForRecipient, instrumentClientWithConstLabels.
  by rewrite Hnil.
Qed.

(** X14.  Two calls of [ForRecipient] on the same base client, one after
    the other, return two different pointers to two clients; the second
    call leaves the first client and the base client as they were, and
    both transports are chains around the base client's transport, the
    second one not around the first. *)
Theorem ForRecipient_twice {R : Type} `{Registerer R}
    (c : Client R) recipient1 recipient2 h base :
  deref h (Client_Client c) = Some base ->
  let i1 := newOutgoingInstrumentation (Client_Namespace c)
              {[ "recipient" := recipient1 ]} in
  let i2 := newOutgoingInstrumentation (Client_Namespace c)
              {[ "recipient" := recipient2 ]} in
  exists l1 l2 client1 client2 err1 err2 reg1 reg2,
    ForRecipient ToLower DefaultTransport c recipient1 h
    = (Done (Some l1, err1), h ++ [client1], reg1)
    /\ ForRecipient ToLower DefaultTransport
         (mkClient (Client_Client c) reg1 (Client_Namespace c)) recipient2
         (h ++ [client1])
       = (Done (Some l2, err2), (h ++ [client1]) ++ [client2], reg2)
    /\ l1 <> l2
    /\ deref ((h ++ [client1]) ++ [client2]) (Some l1) = Some client1
    /\ deref ((h ++ [client1]) ++ [client2]) (Some l2) = Some client2
    /\ deref ((h ++ [client1]) ++ [client2]) (Client_Client c) = Some base
    /\ Transport client1 = Some (instrumentedTransport ToLower i1 (transportOf base))
    /\ Transport client2 = Some (instrumentedTransport ToLower i2 (transportOf base)).
Proof.
  intros Hbase i1 i2. unfold ForRecipient.
  rewrite (instrumentClientWithConstLabels_some _ _ _ _ _ _ _ _ Hbase).
  do 8 eexists. split; [reflexivity|].
  split.
  { cbn [Client_Client Client_Namespace Client_Registerer].
    rewrite (instrumentClientWithConstLabels_some _ _ _ _ _ _ _ _
               (deref_app _ [_] _ _ Hbase)).
    reflexivity. }
  repeat match goal with |- _ /\ _ => split end; try reflexivity.
  - rewrite length_app. simpl. lia.
  - apply deref_app, deref_fresh.
  - apply deref_fresh.
  - by do 2 apply deref_app.
Qed.

End FactoryEdges.

Lemma describe_carries namespace constLabels :
  Forall (fun d => Namespace d = namespace /\ ConstLabels d = constLabels)
         (Describe (newOutgoingInstrumentation namespace constLabels)).
Proof. repeat constructor. Qed.

(** X15.  The metric sets [ForRecipient] builds for two different
    recipients have no descriptor in common, whatever the namespaces:
    every descriptor carries its recipient as a constant label. *)
Theorem recipients_keep_descriptors_apart namespace1 namespace2 recipient1 recipient2 d1 d2 :
  recipient1 <> recipient2 ->
  d1 ∈ Describe (newOutgoingInstrumentation namespace1 {[ "recipient" := recipient1 ]}) ->
  d2 ∈ Describe (newOutgoingInstrumentation namespace2 {[ "recipient" := recipient2 ]}) ->
  ConstLabels d1 !! "recipient" = Some recipient1
  /\ ConstLabels d2 !! "recipient" = Some recipient2
  /\ d1 <> d2.
Proof.
  intros Hne Hd1 Hd2.
  pose proof (describe_carries namespace1 {[ "recipient" := recipient1 ]}) as H1.
  pose proof (describe_carries namespace2 {[ "recipient" := recipient2 ]}) as H2.
  rewrite Forall_forall in H1, H2.
  destruct (H1 d1 Hd1) as [_ Hl1]. destruct (H2 d2 Hd2) as [_ Hl2].
  rewrite Hl1, Hl2, !lookup_singleton_eq. split; [done|]. split; [done|].
  intros ->. rewrite Hl1 in Hl2.
  apply (f_equal (fun m : gmap string string => m !! "recipient")) in Hl2.
  rewrite !lookup_singleton_eq in Hl2. congruence.
Qed.

Lemma ForRecipient_nil_client_witness :
  ForRecipient asciiToLower (baseRoundTrip okTransport) zeroClient "billing" [baseClient]
  = (Panic nilDereference, [baseClient], []).
Proof.
  apply (ForRecipient_nil_client asciiToLower (baseRoundTrip okTransport)
           zeroClient "billing" [baseClient] eq_refl).
Defined.

Lemma ForRecipient_twice_witness :
  exists l1 l2 client1 client2 err1 err2 reg1 reg2,
    ForRecipient asciiToLower (baseRoundTrip okTransport)
      (billingClient []) "billing" [baseClient]
    = (Done (Some l1, err1), [baseClient] ++ [client1], reg1)
    /\ ForRecipient asciiToLower (baseRoundTrip okTransport)
         (billingClient reg1) "shipping" ([baseClient] ++ [client1])
       = (Done (Some l2, err2), ([baseClient] ++ [client1]) ++ [client2], reg2)
    /\ l1 <> l2
    /\ Transport client2
       = Some (instrumentedTransport asciiToLower shipping (baseRoundTrip okTransport)).
Proof.
  destruct (ForRecipient_twice asciiToLower (baseRoundTrip okTransport)
              (billingClient []) "billing" "shipping" [baseClient] baseClient eq_refl)
    as (l1 & l2 & client1 & client2 & err1 & err2 & reg1 & reg2
        & Hfirst & Hsecond & Hne & _ & _ & _ & _ & Htransport).
  exists l1, l2, client1, client2, err1, err2, reg1, reg2.
  repeat match goal with |- _ /\ _ => split end;
    [exact Hfirst | exact Hsecond | exact Hne | exact Htransport].
Defined.

Lemma recipients_keep_descriptors_apart_witness :
  ConstLabels (requestSize billing) !! "recipient" = Some "billing"
  /\ ConstLabels (requestSize shipping) !! "recipient" = Some "shipping"
  /\ requestSize billing <> requestSize shipping.
Proof.
  apply (recipients_keep_descriptors_apart "app" "app" "billing" "shipping").
  - discriminate.
  - apply list_elem_of_In. simpl. do 5 right. left. reflexivity.
  - apply list_elem_of_In. simpl. do 5 right. left. reflexivity.
Defined.
